(** * G1 heap evaluation task

    A shallow embedding of [G1HeapEvaluationTask] (the periodic service
    task of [gc/g1/g1HeapEvaluationTask.cpp]) and of the
    [G1HeapOperationCallback] interface, with the properties of one
    evaluation cycle.

    The task talks to three collaborators whose code is not part of the
    two files: the sizing policy, the collected heap and the service
    thread that re-arms tasks.  Their behaviour is left open: the policy
    and the heap are the methods of a type class, and every theorem holds
    for every instance.  A cycle is a computation in a small monad that
    threads the state of the VM and writes down, in order, every call the
    task makes. *)

From Stdlib Require Import List NArith Bool String Lia.
Import ListNotations.

Local Open Scope N_scope.

(** ** Machine types *)

(** [size_t] and [uintx] values.  The task only compares an amount with
    zero and hands values on, so no arithmetic and no wrap-around occur. *)
Definition size_t : Type := N.
Definition uintx : Type := N.

(** The address of a C++ object ([G1CollectedHeap*], [G1HeapSizingPolicy*],
    [WorkerThreads*]). *)
Definition ptr : Type := N.

(** ** The task object *)

(** The constructor's initialiser list: the [G1ServiceTask] base is built
    from the task's name, then the two pointers are stored. *)
Record G1HeapEvaluationTask : Type := {
  service_task_name : string;
  _g1h : ptr;
  _heap_sizing_policy : ptr
}.

Definition new_G1HeapEvaluationTask (g1h heap_sizing_policy : ptr)
  : G1HeapEvaluationTask :=
  {| service_task_name := "G1 Heap Evaluation Task"%string;
     _g1h := g1h;
     _heap_sizing_policy := heap_sizing_policy |}.

(** ** Calls made by a cycle *)

Inductive Call : Type :=
| Call_log_debug (fmt : string) (args : list size_t)
| Call_evaluate_heap_resize (policy : ptr) (should_expand : bool)
| Call_expand (g1h : ptr) (expand_bytes : size_t) (pretouch_workers : ptr)
| Call_request_heap_shrink (g1h : ptr) (shrink_bytes : size_t)
| Call_schedule (delay_ms : uintx).

(** What [evaluate_heap_resize(bool& should_expand)] hands back: the
    returned amount, and the value it stored through the reference, if it
    stored one. *)
Record ResizeReply : Type := {
  reply_amount : size_t;
  reply_store : option bool
}.

(** The referenced variable after the call. *)
Definition out_param (before : bool) (store : option bool) : bool :=
  match store with
  | Some b => b
  | None => before
  end.

(** ** The shrink-request interface *)

(** [G1HeapOperationCallback]: an abstract class with one pure virtual
    method, [request_shrink(size_t bytes)]; [T] is the state of the object
    that implements it. *)
Class G1HeapOperationCallback (T : Type) : Type := {
  request_shrink : size_t -> T -> T
}.

(** ** The resource area *)

(** The thread's resource area: the sizes of the live allocations, newest
    first. *)
Definition ResourceArea : Type := list N.

(** Modelled from the spec: [ResourceMark] (memory/resourceArea.hpp is not
    among the sources).  "A scoped temporary-resource region for the
    duration of the cycle (guaranteed release on all exit paths)": the
    constructor remembers how much of the area is in use, the destructor
    drops everything allocated above that level. *)
Definition ResourceMark_save (area : ResourceArea) : nat := List.length area.

Definition ResourceMark_rollback (saved : nat) (area : ResourceArea)
  : ResourceArea :=
  skipn (List.length area - saved)%nat area.

Section Task.

(** The C++ objects behind the two pointers (heap, policy, worker
    threads): their representation is the collaborators' business. *)
Context {Objs : Type}.

(** Everything a collaborator can read and change: the two global flags
    (they are external configuration and may be changed while a cycle
    runs) and the objects. *)
Record Env : Type := {
  G1UseTimeBasedHeapSizing : bool;
  G1TimeBasedEvaluationIntervalMillis : uintx;
  objects : Objs
}.

(** The methods the task calls on the policy and on the heap.  Each is
    given the receiver and the arguments, and returns its result, the
    environment it leaves, and what it allocated in the caller's resource
    area.  Their declarations (g1CollectedHeap.hpp, g1HeapSizingPolicy.hpp)
    are not among the sources, so they are parameters here; [expand] may
    fail and reports success ([true]) or failure ([false]). *)
Class Collaborators : Type := {
  evaluate_heap_resize : ptr -> bool -> Env -> ResizeReply * Env * list N;
  workers : ptr -> Env -> ptr;
  expand : ptr -> size_t -> ptr -> Env -> bool * Env * list N;
  request_heap_shrink : ptr -> size_t -> Env -> Env * list N
}.

Context {collab : Collaborators}.

(** The state a cycle runs in. *)
Record World : Type := {
  env : Env;
  resource_area : ResourceArea;
  this : G1HeapEvaluationTask
}.

(** ** The monad: state passing plus the list of calls made *)

Record Run (A : Type) : Type := {
  value : A;
  after : World;
  calls : list Call
}.
Arguments value {A} _.
Arguments after {A} _.
Arguments calls {A} _.

Definition M (A : Type) : Type := World -> Run A.

Definition ret {A : Type} (a : A) : M A :=
  fun w => {| value := a; after := w; calls := [] |}.

Definition bind {A B : Type} (m : M A) (k : A -> M B) : M B :=
  fun w =>
    match m w with
    | {| value := a; after := w1; calls := cs1 |} =>
        match k a w1 with
        | {| value := b; after := w2; calls := cs2 |} =>
            {| value := b; after := w2; calls := cs1 ++ cs2 |}
        end
    end.

Notation "x <- m ;; k" := (bind m (fun x => k))
  (at level 61, m at next level, right associativity).
Notation "m ;;; k" := (bind m (fun _ => k))
  (at level 61, right associativity).

Definition emit (c : Call) : M unit :=
  fun w => {| value := tt; after := w; calls := [c] |}.

(** Reading a global flag or a field of [this]. *)
Definition read_global {A : Type} (f : Env -> A) : M A :=
  fun w => {| value := f (env w); after := w; calls := [] |}.

Definition read_field {A : Type} (f : G1HeapEvaluationTask -> A) : M A :=
  fun w => {| value := f (this w); after := w; calls := [] |}.

(** A collaborator returned: its environment replaces the old one and
    its allocations go on top of the resource area. *)
Definition returned (e : Env) (allocs : list N) (w : World) : World :=
  {| env := e;
     resource_area := allocs ++ resource_area w;
     this := this w |}.

(** [log_debug(gc, sizing)(fmt, args...)]: a diagnostic record, nothing
    else. *)
Definition log_debug (fmt : string) (args : list size_t) : M unit :=
  emit (Call_log_debug fmt args).

(** [policy->evaluate_heap_resize(should_expand)]: yields the returned
    amount and the referenced variable after the call. *)
Definition do_evaluate_heap_resize (policy : ptr) (should_expand : bool)
  : M (size_t * bool) :=
  fun w =>
    let '(reply, e, allocs) := evaluate_heap_resize policy should_expand (env w) in
    {| value := (reply_amount reply, out_param should_expand (reply_store reply));
       after := returned e allocs w;
       calls := [Call_evaluate_heap_resize policy should_expand] |}.

(** [g1h->workers()]: a getter. *)
Definition do_workers (g1h : ptr) : M ptr :=
  fun w => {| value := workers g1h (env w); after := w; calls := [] |}.

(** [g1h->expand(bytes, pretouch_workers)]. *)
Definition do_expand (g1h : ptr) (bytes : size_t) (pretouch_workers : ptr)
  : M bool :=
  fun w =>
    let '(ok, e, allocs) := expand g1h bytes pretouch_workers (env w) in
    {| value := ok;
       after := returned e allocs w;
       calls := [Call_expand g1h bytes pretouch_workers] |}.

(** [g1h->request_heap_shrink(bytes)]. *)
Definition do_request_heap_shrink (g1h : ptr) (bytes : size_t) : M unit :=
  fun w =>
    let '(e, allocs) := request_heap_shrink g1h bytes (env w) in
    {| value := tt;
       after := returned e allocs w;
       calls := [Call_request_heap_shrink g1h bytes] |}.

(** [G1ServiceTask::schedule(delay_ms)]: hands the task back to the
    service thread. *)
Definition schedule (delay_ms : uintx) : M unit :=
  emit (Call_schedule delay_ms).

(** The scope of a [ResourceMark] local: constructed where it is
    declared, destroyed when the enclosing block is left. *)
Definition ResourceMark_scope {A : Type} (body : M A) : M A :=
  fun w =>
    let saved := ResourceMark_save (resource_area w) in
    match body w with
    | {| value := a; after := w1; calls := cs |} =>
        {| value := a;
           after := {| env := env w1;
                       resource_area :=
                         ResourceMark_rollback saved (resource_area w1);
                       this := this w1 |};
           calls := cs |}
    end.

(** ** [G1HeapEvaluationTask::execute] *)

Definition execute : M unit :=
  log_debug "Starting heap evaluation"%string [] ;;;
  use_time_based <- read_global G1UseTimeBasedHeapSizing ;;
  if negb use_time_based then
    ret tt
  else
    ResourceMark_scope (
      let should_expand := false in
      heap_sizing_policy <- read_field _heap_sizing_policy ;;
      decision <- do_evaluate_heap_resize heap_sizing_policy should_expand ;;
      let resize_amount := fst decision in
      let should_expand := snd decision in
      (if 0 <? resize_amount then
         if should_expand then
           log_debug "Expanding heap by %zu bytes"%string [resize_amount] ;;;
           g1h <- read_field _g1h ;;
           pretouch_workers <- do_workers g1h ;;
           _ <- do_expand g1h resize_amount pretouch_workers ;;
           ret tt
         else
           log_debug "Shrinking heap by %zu bytes"%string [resize_amount] ;;;
           g1h <- read_field _g1h ;;
           do_request_heap_shrink g1h resize_amount
       else
         ret tt) ;;;
      interval <- read_global G1TimeBasedEvaluationIntervalMillis ;;
      schedule interval).

(** ** Reading the list of calls *)

Definition expand_calls (cs : list Call) : list (ptr * size_t * ptr) :=
  flat_map (fun c => match c with
                     | Call_expand g b ws => [(g, b, ws)]
                     | _ => []
                     end) cs.

Definition shrink_requests (cs : list Call) : list (ptr * size_t) :=
  flat_map (fun c => match c with
                     | Call_request_heap_shrink g b => [(g, b)]
                     | _ => []
                     end) cs.

Definition policy_calls (cs : list Call) : list (ptr * bool) :=
  flat_map (fun c => match c with
                     | Call_evaluate_heap_resize p b => [(p, b)]
                     | _ => []
                     end) cs.

Definition schedule_calls (cs : list Call) : list uintx :=
  flat_map (fun c => match c with
                     | Call_schedule ms => [ms]
                     | _ => []
                     end) cs.

End Task.

Arguments Env Objs : clear implicits.
Arguments Collaborators Objs : clear implicits.
Arguments World Objs : clear implicits.
Arguments Run Objs A : clear implicits.
Arguments value {Objs A} _.
Arguments after {Objs A} _.
Arguments calls {Objs A} _.

(** ** A scripted heap and policy

    A test double for the two collaborators: the policy answers what the
    script says, the heap commits memory up to a limit and only records
    shrink requests. *)

Record Scripted : Type := {
  scripted_reply : ResizeReply;
  scripted_reconfigure : option uintx;
  committed_bytes : size_t;
  backing_store_bytes : size_t;
  pending_shrinks : list size_t
}.

Definition with_objects (e : Env Scripted) (o : Scripted) : Env Scripted :=
  {| G1UseTimeBasedHeapSizing := G1UseTimeBasedHeapSizing e;
     G1TimeBasedEvaluationIntervalMillis := G1TimeBasedEvaluationIntervalMillis e;
     objects := o |}.

(** The policy answers from the script and uses 32 bytes of scratch space;
    while it runs, the interval flag is set to the scripted value, if
    any. *)
Definition scripted_evaluate (policy : ptr) (should_expand : bool)
  (e : Env Scripted) : ResizeReply * Env Scripted * list N :=
  (scripted_reply (objects e),
   {| G1UseTimeBasedHeapSizing := G1UseTimeBasedHeapSizing e;
      G1TimeBasedEvaluationIntervalMillis :=
        match scripted_reconfigure (objects e) with
        | Some ms => ms
        | None => G1TimeBasedEvaluationIntervalMillis e
        end;
      objects := objects e |},
   [32]).

(** Committing fails when the backing store cannot hold the new total. *)
Definition scripted_expand (g1h : ptr) (bytes : size_t) (pretouch_workers : ptr)
  (e : Env Scripted) : bool * Env Scripted * list N :=
  let o := objects e in
  if committed_bytes o + bytes <=? backing_store_bytes o then
    (true,
     with_objects e
       {| scripted_reply := scripted_reply o;
          scripted_reconfigure := scripted_reconfigure o;
          committed_bytes := committed_bytes o + bytes;
          backing_store_bytes := backing_store_bytes o;
          pending_shrinks := pending_shrinks o |},
     [8])
  else
    (false, e, [8]).

(** A shrink request is queued, not served. *)
Definition scripted_request_heap_shrink (g1h : ptr) (bytes : size_t)
  (e : Env Scripted) : Env Scripted * list N :=
  let o := objects e in
  (with_objects e
     {| scripted_reply := scripted_reply o;
        scripted_reconfigure := scripted_reconfigure o;
        committed_bytes := committed_bytes o;
        backing_store_bytes := backing_store_bytes o;
        pending_shrinks := pending_shrinks o ++ [bytes] |},
   []).

#[export] Instance scripted_collaborators : Collaborators Scripted := {
  evaluate_heap_resize := scripted_evaluate;
  workers := fun g1h _ => g1h + 1;
  expand := scripted_expand;
  request_heap_shrink := scripted_request_heap_shrink
}.

(** The scripted heap also implements the shrink-request interface. *)
#[export] Instance scripted_callback : G1HeapOperationCallback Scripted := {
  request_shrink := fun bytes o =>
    {| scripted_reply := scripted_reply o;
       scripted_reconfigure := scripted_reconfigure o;
       committed_bytes := committed_bytes o;
       backing_store_bytes := backing_store_bytes o;
       pending_shrinks := pending_shrinks o ++ [bytes] |}
}.

(** A world for the scripted collaborators: the heap object at address
    4096, the policy at 8192, 64 MiB committed of 128 MiB, one earlier
    allocation of 24 bytes in the resource area. *)
Definition scripted_world (enabled : bool) (interval : uintx)
  (reply : ResizeReply) (reconfigure : option uintx) : World Scripted :=
  {| env := {| G1UseTimeBasedHeapSizing := enabled;
               G1TimeBasedEvaluationIntervalMillis := interval;
               objects := {| scripted_reply := reply;
                             scripted_reconfigure := reconfigure;
                             committed_bytes := 67108864;
                             backing_store_bytes := 134217728;
                             pending_shrinks := [] |} |};
     resource_area := [24];
     this := new_G1HeapEvaluationTask 4096 8192 |}.

Definition grow_by (bytes : size_t) : ResizeReply :=
  {| reply_amount := bytes; reply_store := Some true |}.

Definition shrink_by (bytes : size_t) : ResizeReply :=
  {| reply_amount := bytes; reply_store := Some false |}.

(** A policy that returns an amount and leaves the reference alone. *)
Definition amount_only (bytes : size_t) : ResizeReply :=
  {| reply_amount := bytes; reply_store := None |}.

(** The worlds the properties are tried on. *)
Definition disabled_world : World Scripted :=
  scripted_world false 5000 (grow_by 1048576) None.

Definition grow_world : World Scripted :=
  scripted_world true 5000 (grow_by 1048576) None.

Definition shrink_world : World Scripted :=
  scripted_world true 5000 (shrink_by 2097152) None.

Definition zero_world : World Scripted :=
  scripted_world true 5000 (grow_by 0) None.

(** The policy asks for 100 MiB more than the 64 MiB committed, which the
    128 MiB backing store cannot hold: [expand] fails. *)
Definition exhausted_world : World Scripted :=
  scripted_world true 5000 (grow_by 104857600) None.

(** The interval flag is 5000 when the cycle starts and is set to 7 while
    the policy runs. *)
Definition reconfigured_world : World Scripted :=
  scripted_world true 5000 (shrink_by 2097152) (Some 7).

Definition undirected_world : World Scripted :=
  scripted_world true 5000 (amount_only 2097152) None.

(** ** Log records of a cycle *)

Definition log_records (cs : list Call) : list (string * list size_t) :=
  flat_map (fun c => match c with
                     | Call_log_debug fmt args => [(fmt, args)]
                     | _ => []
                     end) cs.

(** ** Collaborators derived from others *)

(** The same policy and heap, with the outcome reported by [expand]
    passed through [f]. *)
Definition with_expand_result {Objs : Type} (f : bool -> bool)
  (c : Collaborators Objs) : Collaborators Objs :=
  {| evaluate_heap_resize := @evaluate_heap_resize Objs c;
     workers := @workers Objs c;
     expand := fun g1h bytes pretouch_workers e =>
                 let '(ok, e', allocs) :=
                   @expand Objs c g1h bytes pretouch_workers e in
                 (f ok, e', allocs);
     request_heap_shrink := @request_heap_shrink Objs c |}.

(** Two environments with the same values of the two global flags. *)
Definition same_globals {Objs : Type} (e e' : Env Objs) : Prop :=
  G1UseTimeBasedHeapSizing e' = G1UseTimeBasedHeapSizing e
  /\ G1TimeBasedEvaluationIntervalMillis e'
     = G1TimeBasedEvaluationIntervalMillis e.

(** Collaborators none of whose methods changes a global flag. *)
Definition keeps_globals {Objs : Type} (c : Collaborators Objs) : Prop :=
  (forall policy should_expand e,
      same_globals e
        (snd (fst (@evaluate_heap_resize Objs c policy should_expand e))))
  /\ (forall g1h bytes pretouch_workers e,
        same_globals e
          (snd (fst (@expand Objs c g1h bytes pretouch_workers e))))
  /\ (forall g1h bytes e,
        same_globals e (fst (@request_heap_shrink Objs c g1h bytes e))).

(** The scripted heap with a policy that leaves the flags alone. *)
Definition steady_collaborators : Collaborators Scripted :=
  {| evaluate_heap_resize := fun _ _ e => (scripted_reply (objects e), e, [32]);
     workers := fun g1h _ => g1h + 1;
     expand := scripted_expand;
     request_heap_shrink := scripted_request_heap_shrink |}.

(** The scripted heap with a policy during whose run the time-based-sizing
    flag is switched off. *)
Definition switching_off_collaborators : Collaborators Scripted :=
  {| evaluate_heap_resize := fun _ _ e =>
       (scripted_reply (objects e),
        {| G1UseTimeBasedHeapSizing := false;
           G1TimeBasedEvaluationIntervalMillis :=
             G1TimeBasedEvaluationIntervalMillis e;
           objects := objects e |},
        [32]);
     workers := fun g1h _ => g1h + 1;
     expand := scripted_expand;
     request_heap_shrink := scripted_request_heap_shrink |}.

(** ** Invocations in a row *)


(** ** Proof steps

    Unfolding one cycle, and splitting it into its paths. *)
Ltac step_cycle :=
  unfold execute, ResourceMark_scope, bind, ret, read_global, read_field,
    log_debug, schedule, emit, do_evaluate_heap_resize, do_workers,
    do_expand, do_request_heap_shrink, returned;
  cbn -[N.ltb ResourceMark_rollback ResourceMark_save].

(* Every path through [execute], one goal per path. *)
Ltac each_path w :=
  step_cycle;
  destruct (G1UseTimeBasedHeapSizing (env w)) eqn:Hflag; step_cycle;
  [ destruct (evaluate_heap_resize (_heap_sizing_policy (this w)) false (env w))
      as [[reply e1] a1] eqn:Hev; step_cycle;
    destruct (0 <? reply_amount reply) eqn:Hpos; step_cycle;
    [ destruct (out_param false (reply_store reply)) eqn:Hdir; step_cycle;
      [ destruct (expand (_g1h (this w)) (reply_amount reply)
                    (workers (_g1h (this w)) e1) e1)
          as [[ok e2] a2] eqn:Hex; step_cycle
      | destruct (request_heap_shrink (_g1h (this w)) (reply_amount reply) e1)
          as [e2 a2] eqn:Hsh; step_cycle ]
    | ]
  | ].

(** * Properties of one cycle *)

(** Dropping back to a mark set before some allocations frees exactly
    those allocations. *)
Lemma ResourceMark_rollback_app (extra area : ResourceArea) :
  ResourceMark_rollback (ResourceMark_save area) (extra ++ area) = area.
Proof.
  unfold ResourceMark_rollback, ResourceMark_save.
  rewrite length_app.
  replace (List.length extra + List.length area - List.length area)%nat
    with (List.length extra) by lia.
  induction extra as [|x extra IH]; [reflexivity | exact IH].
Qed.

Lemma ResourceMark_rollback_same (area : ResourceArea) :
  ResourceMark_rollback (ResourceMark_save area) area = area.
Proof. exact (ResourceMark_rollback_app [] area). Qed.

Section Properties.

Context {Objs : Type} {collab : Collaborators Objs}.

Implicit Types (w : World Objs) (e : Env Objs) (reply : ResizeReply).

(** With the flag off the cycle logs its start and returns. *)
Lemma execute_disabled w :
  G1UseTimeBasedHeapSizing (env w) = false ->
  execute w =
  {| value := tt; after := w;
     calls := [Call_log_debug "Starting heap evaluation" []] |}.
Proof.
  intros Hoff. step_cycle. rewrite Hoff. reflexivity.
Qed.

(** The calls of a cycle whose policy asks for nothing. *)
Lemma execute_calls_no_action w reply e1 a1 :
  G1UseTimeBasedHeapSizing (env w) = true ->
  evaluate_heap_resize (_heap_sizing_policy (this w)) false (env w)
    = (reply, e1, a1) ->
  reply_amount reply = 0 ->
  calls (execute w) =
    [Call_log_debug "Starting heap evaluation" [];
     Call_evaluate_heap_resize (_heap_sizing_policy (this w)) false;
     Call_schedule (G1TimeBasedEvaluationIntervalMillis e1)]
  /\ env (after (execute w)) = e1.
Proof.
  intros Hon Hev Hzero. step_cycle. rewrite Hon. step_cycle.
  rewrite Hev. step_cycle. rewrite Hzero. cbn. split; reflexivity.
Qed.

(** The calls of a cycle whose policy asks to grow. *)
Lemma execute_calls_grow w reply e1 a1 ok e2 a2 :
  G1UseTimeBasedHeapSizing (env w) = true ->
  evaluate_heap_resize (_heap_sizing_policy (this w)) false (env w)
    = (reply, e1, a1) ->
  0 < reply_amount reply ->
  out_param false (reply_store reply) = true ->
  expand (_g1h (this w)) (reply_amount reply) (workers (_g1h (this w)) e1) e1
    = (ok, e2, a2) ->
  calls (execute w) =
    [Call_log_debug "Starting heap evaluation" [];
     Call_evaluate_heap_resize (_heap_sizing_policy (this w)) false;
     Call_log_debug "Expanding heap by %zu bytes" [reply_amount reply];
     Call_expand (_g1h (this w)) (reply_amount reply)
       (workers (_g1h (this w)) e1);
     Call_schedule (G1TimeBasedEvaluationIntervalMillis e2)]
  /\ env (after (execute w)) = e2.
Proof.
  intros Hon Hev Hpos Hdir Hex. step_cycle. rewrite Hon. step_cycle.
  rewrite Hev. step_cycle.
  apply N.ltb_lt in Hpos. rewrite Hpos, Hdir. step_cycle.
  rewrite Hex. cbn. split; reflexivity.
Qed.

(** The calls of a cycle whose policy asks to shrink. *)
Lemma execute_calls_shrink w reply e1 a1 e2 a2 :
  G1UseTimeBasedHeapSizing (env w) = true ->
  evaluate_heap_resize (_heap_sizing_policy (this w)) false (env w)
    = (reply, e1, a1) ->
  0 < reply_amount reply ->
  out_param false (reply_store reply) = false ->
  request_heap_shrink (_g1h (this w)) (reply_amount reply) e1 = (e2, a2) ->
  calls (execute w) =
    [Call_log_debug "Starting heap evaluation" [];
     Call_evaluate_heap_resize (_heap_sizing_policy (this w)) false;
     Call_log_debug "Shrinking heap by %zu bytes" [reply_amount reply];
     Call_request_heap_shrink (_g1h (this w)) (reply_amount reply);
     Call_schedule (G1TimeBasedEvaluationIntervalMillis e2)]
  /\ env (after (execute w)) = e2.
Proof.
  intros Hon Hev Hpos Hdir Hsh. step_cycle. rewrite Hon. step_cycle.
  rewrite Hev. step_cycle.
  apply N.ltb_lt in Hpos. rewrite Hpos, Hdir. step_cycle.
  rewrite Hsh. cbn. split; reflexivity.
Qed.

Lemma schedule_calls_In (cs : list Call) (ms : uintx) :
  In (Call_schedule ms) cs <-> In ms (schedule_calls cs).
Proof.
  unfold schedule_calls. rewrite in_flat_map. split.
  - intros Hin. exists (Call_schedule ms). split; [exact Hin | now left].
  - intros [c [Hin Hc]]. destruct c; cbn in Hc; try contradiction.
    destruct Hc as [-> | []]. exact Hin.
Qed.

(** With the flag on, the cycle ends with its only [schedule] call, which
    passes the interval flag as it is when the cycle ends. *)
Lemma execute_enabled_ends_with_schedule w :
  G1UseTimeBasedHeapSizing (env w) = true ->
  exists before,
    calls (execute w) =
      before ++
      [Call_schedule
         (G1TimeBasedEvaluationIntervalMillis (env (after (execute w))))]
    /\ schedule_calls before = [].
Proof.
  intros Hon. each_path w; try discriminate.
  - eexists [_; _; _; _]. split; reflexivity.
  - eexists [_; _; _; _]. split; reflexivity.
  - eexists [_; _]. split; reflexivity.
Qed.

(** ** The claims *)

(** C1 (as amended).  When the time-based-sizing flag is off, a cycle
    makes no call to [expand], no shrink request and no call to
    [schedule]: it logs its start and returns, and the task is not
    re-armed by this cycle. *)
Theorem execute_disabled_does_not_reschedule w :
  G1UseTimeBasedHeapSizing (env w) = false ->
  expand_calls (calls (execute w)) = []
  /\ shrink_requests (calls (execute w)) = []
  /\ schedule_calls (calls (execute w)) = [].
Proof.
  intros Hoff. rewrite (execute_disabled w Hoff). cbn. repeat split.
Qed.

(** C2.  With the flag on, when the policy answers a positive amount with
    direction grow, the cycle calls [expand] exactly once, on the task's
    heap, with that amount and the heap's workers, and calls [schedule]
    exactly once; nothing is assumed about the result of [expand]. *)
Theorem execute_grow_expands_once_and_reschedules w reply e1 a1 :
  G1UseTimeBasedHeapSizing (env w) = true ->
  evaluate_heap_resize (_heap_sizing_policy (this w)) false (env w)
    = (reply, e1, a1) ->
  0 < reply_amount reply ->
  out_param false (reply_store reply) = true ->
  expand_calls (calls (execute w)) =
    [(_g1h (this w), reply_amount reply, workers (_g1h (this w)) e1)]
  /\ List.length (schedule_calls (calls (execute w))) = 1%nat.
Proof.
  intros Hon Hev Hpos Hdir.
  destruct (expand (_g1h (this w)) (reply_amount reply)
              (workers (_g1h (this w)) e1) e1) as [[ok e2] a2] eqn:Hex.
  destruct (execute_calls_grow w reply e1 a1 ok e2 a2 Hon Hev Hpos Hdir Hex)
    as [Hcalls _].
  rewrite Hcalls. split; reflexivity.
Qed.

(** C3.  With the flag on, when the policy answers a positive amount with
    direction shrink, the cycle issues exactly one shrink request, on the
    task's heap, with that amount, makes no call to [expand], and calls
    [schedule] exactly once. *)
Theorem execute_shrink_requests_once_and_reschedules w reply e1 a1 :
  G1UseTimeBasedHeapSizing (env w) = true ->
  evaluate_heap_resize (_heap_sizing_policy (this w)) false (env w)
    = (reply, e1, a1) ->
  0 < reply_amount reply ->
  out_param false (reply_store reply) = false ->
  shrink_requests (calls (execute w)) = [(_g1h (this w), reply_amount reply)]
  /\ expand_calls (calls (execute w)) = []
  /\ List.length (schedule_calls (calls (execute w))) = 1%nat.
Proof.
  intros Hon Hev Hpos Hdir.
  destruct (request_heap_shrink (_g1h (this w)) (reply_amount reply) e1)
    as [e2 a2] eqn:Hsh.
  destruct (execute_calls_shrink w reply e1 a1 e2 a2 Hon Hev Hpos Hdir Hsh)
    as [Hcalls _].
  rewrite Hcalls. repeat split.
Qed.

(** C4.  With the flag on, when the policy answers the amount zero, then
    whatever it stored as direction, the cycle makes no call to [expand]
    and no shrink request, and calls [schedule] exactly once. *)
Theorem execute_zero_amount_only_reschedules w reply e1 a1 :
  G1UseTimeBasedHeapSizing (env w) = true ->
  evaluate_heap_resize (_heap_sizing_policy (this w)) false (env w)
    = (reply, e1, a1) ->
  reply_amount reply = 0 ->
  expand_calls (calls (execute w)) = []
  /\ shrink_requests (calls (execute w)) = []
  /\ List.length (schedule_calls (calls (execute w))) = 1%nat.
Proof.
  intros Hon Hev Hzero.
  destruct (execute_calls_no_action w reply e1 a1 Hon Hev Hzero)
    as [Hcalls _].
  rewrite Hcalls. repeat split.
Qed.

(** C5.  [execute] hands nothing but [tt] back to the service thread.
    When [expand] reports failure, that call is the only call to [expand]
    in the cycle (no retry), and the cycle goes on to its single
    [schedule] call, which is its last call. *)
Theorem execute_absorbs_expand_failure w reply e1 a1 e2 a2 :
  G1UseTimeBasedHeapSizing (env w) = true ->
  evaluate_heap_resize (_heap_sizing_policy (this w)) false (env w)
    = (reply, e1, a1) ->
  0 < reply_amount reply ->
  out_param false (reply_store reply) = true ->
  expand (_g1h (this w)) (reply_amount reply) (workers (_g1h (this w)) e1) e1
    = (false, e2, a2) ->
  value (execute w) = tt
  /\ List.length (expand_calls (calls (execute w))) = 1%nat
  /\ schedule_calls (calls (execute w)) =
       [G1TimeBasedEvaluationIntervalMillis e2]
  /\ exists before,
       calls (execute w) =
         before ++
         [Call_expand (_g1h (this w)) (reply_amount reply)
            (workers (_g1h (this w)) e1);
          Call_schedule (G1TimeBasedEvaluationIntervalMillis e2)].
Proof.
  intros Hon Hev Hpos Hdir Hex.
  destruct (execute_calls_grow w reply e1 a1 false e2 a2 Hon Hev Hpos Hdir Hex)
    as [Hcalls _].
  rewrite Hcalls. split; [now destruct (value (execute w)) |].
  split; [reflexivity |]. split; [reflexivity |].
  eexists [_; _; _]. reflexivity.
Qed.

(** C6.  Whenever a cycle calls [schedule], the delay it passes is the
    value the interval flag has at that moment: the call is the last
    thing the cycle does, and the delay is the flag's value in the state
    the cycle ends in, whatever the flag was when the cycle began or when
    the task was built. *)
Theorem execute_schedules_with_current_interval w ms :
  In (Call_schedule ms) (calls (execute w)) ->
  ms = G1TimeBasedEvaluationIntervalMillis (env (after (execute w)))
  /\ exists before, calls (execute w) = before ++ [Call_schedule ms].
Proof.
  intros Hin.
  destruct (G1UseTimeBasedHeapSizing (env w)) eqn:Hflag.
  - destruct (execute_enabled_ends_with_schedule w Hflag)
      as [before [Hcalls Hnone]].
    assert (ms = G1TimeBasedEvaluationIntervalMillis (env (after (execute w))))
      as Hms.
    { rewrite Hcalls in Hin. apply in_app_or in Hin.
      destruct Hin as [Hin | [Heq | []]].
      - apply schedule_calls_In in Hin. rewrite Hnone in Hin. contradiction.
      - now injection Heq. }
    split; [exact Hms |]. exists before. rewrite Hms. exact Hcalls.
  - rewrite (execute_disabled w Hflag) in Hin. cbn in Hin.
    destruct Hin as [Habs | []]. discriminate Habs.
Qed.

(** C7.  When the flag is off, a cycle makes no call to the policy, no
    call to [expand] and no shrink request, and it leaves the whole
    state as it found it: flags, policy and heap objects. *)
Theorem execute_disabled_touches_nothing w :
  G1UseTimeBasedHeapSizing (env w) = false ->
  policy_calls (calls (execute w)) = []
  /\ expand_calls (calls (execute w)) = []
  /\ shrink_requests (calls (execute w)) = []
  /\ after (execute w) = w.
Proof.
  intros Hoff. rewrite (execute_disabled w Hoff). cbn. repeat split.
Qed.

(** C8.  On every path (flag off, grow with [expand] succeeding or
    failing, shrink, no action) the resource area is, when [execute]
    returns, exactly what it was when [execute] was entered: everything
    the collaborators allocated in it during the cycle is released. *)
Theorem execute_releases_resources w :
  resource_area (after (execute w)) = resource_area w.
Proof.
  each_path w.
  - rewrite app_assoc. apply ResourceMark_rollback_app.
  - rewrite app_assoc. apply ResourceMark_rollback_app.
  - apply ResourceMark_rollback_app.
  - reflexivity.
Qed.

(** C10.  The policy is called with the direction variable set to
    [false]; when it answers a positive amount and stores nothing
    through the reference, the cycle issues a shrink request for that
    amount and makes no call to [expand]. *)
Theorem execute_default_direction_is_shrink w amount e1 a1 :
  G1UseTimeBasedHeapSizing (env w) = true ->
  evaluate_heap_resize (_heap_sizing_policy (this w)) false (env w)
    = ({| reply_amount := amount; reply_store := None |}, e1, a1) ->
  0 < amount ->
  policy_calls (calls (execute w)) = [(_heap_sizing_policy (this w), false)]
  /\ shrink_requests (calls (execute w)) = [(_g1h (this w), amount)]
  /\ expand_calls (calls (execute w)) = [].
Proof.
  intros Hon Hev Hpos.
  destruct (request_heap_shrink (_g1h (this w)) amount e1)
    as [e2 a2] eqn:Hsh.
  destruct (execute_calls_shrink w _ e1 a1 e2 a2 Hon Hev Hpos eq_refl Hsh)
    as [Hcalls _].
  rewrite Hcalls. repeat split.
Qed.

End Properties.

(** ** The claims on the scripted collaborators *)

(** C1 as first stated (flag off: no heap action, and exactly one call to
    [schedule]) fails: with the flag off the cycle of [disabled_world]
    makes no call to [schedule]. *)
Lemma execute_disabled_reschedules_counterexample :
  ~ (G1UseTimeBasedHeapSizing (env disabled_world) = false ->
     expand_calls (calls (execute disabled_world)) = []
     /\ shrink_requests (calls (execute disabled_world)) = []
     /\ List.length (schedule_calls (calls (execute disabled_world))) = 1%nat).
Proof.
  intros Hclaim. destruct (Hclaim eq_refl) as [_ [_ Hone]].
  vm_compute in Hone. discriminate Hone.
Qed.

(** The flag-off cycle of [disabled_world] makes no heap call and no [schedule] call. *)
Lemma execute_disabled_does_not_reschedule_witness :
  G1UseTimeBasedHeapSizing (env disabled_world) = false
  /\ expand_calls (calls (execute disabled_world)) = []
  /\ shrink_requests (calls (execute disabled_world)) = []
  /\ schedule_calls (calls (execute disabled_world)) = [].
Proof.
  split; [reflexivity |].
  exact (execute_disabled_does_not_reschedule disabled_world eq_refl).
Defined.

(** Growing by 1 MiB: one [expand] on the heap at 4096 with its workers at 4097, one [schedule]. *)
Lemma execute_grow_expands_once_and_reschedules_witness :
  G1UseTimeBasedHeapSizing (env grow_world) = true
  /\ 0 < 1048576
  /\ expand_calls (calls (execute grow_world)) = [(4096, 1048576, 4097)]
  /\ List.length (schedule_calls (calls (execute grow_world))) = 1%nat.
Proof.
  split; [reflexivity |]. split; [reflexivity |].
  exact (execute_grow_expands_once_and_reschedules grow_world
           (grow_by 1048576) _ _ eq_refl eq_refl eq_refl eq_refl).
Defined.

(** Shrinking by 2 MiB: one shrink request, no [expand], one [schedule]. *)
Lemma execute_shrink_requests_once_and_reschedules_witness :
  G1UseTimeBasedHeapSizing (env shrink_world) = true
  /\ 0 < 2097152
  /\ shrink_requests (calls (execute shrink_world)) = [(4096, 2097152)]
  /\ expand_calls (calls (execute shrink_world)) = []
  /\ List.length (schedule_calls (calls (execute shrink_world))) = 1%nat.
Proof.
  split; [reflexivity |]. split; [reflexivity |].
  exact (execute_shrink_requests_once_and_reschedules shrink_world
           (shrink_by 2097152) _ _ eq_refl eq_refl eq_refl eq_refl).
Defined.

(** Amount zero with the direction stored as grow: only [schedule]. *)
Lemma execute_zero_amount_only_reschedules_witness :
  G1UseTimeBasedHeapSizing (env zero_world) = true
  /\ reply_amount (grow_by 0) = 0
  /\ expand_calls (calls (execute zero_world)) = []
  /\ shrink_requests (calls (execute zero_world)) = []
  /\ List.length (schedule_calls (calls (execute zero_world))) = 1%nat.
Proof.
  split; [reflexivity |]. split; [reflexivity |].
  exact (execute_zero_amount_only_reschedules zero_world
           (grow_by 0) _ _ eq_refl eq_refl eq_refl).
Defined.

(** [expand] fails in [exhausted_world]; it is called once and [schedule] follows. *)
Lemma execute_absorbs_expand_failure_witness :
  fst (fst (expand 4096 104857600 4097 (env exhausted_world))) = false
  /\ value (execute exhausted_world) = tt
  /\ List.length (expand_calls (calls (execute exhausted_world))) = 1%nat
  /\ schedule_calls (calls (execute exhausted_world)) = [5000]
  /\ exists before,
       calls (execute exhausted_world) =
         before ++ [Call_expand 4096 104857600 4097; Call_schedule 5000].
Proof.
  split; [reflexivity |].
  exact (execute_absorbs_expand_failure exhausted_world
           (grow_by 104857600) _ _ _ _ eq_refl eq_refl eq_refl eq_refl eq_refl).
Defined.

(** The interval is 5000 when the cycle starts and 7 when it reschedules: [schedule] gets 7. *)
Lemma execute_schedules_with_current_interval_witness :
  G1TimeBasedEvaluationIntervalMillis (env reconfigured_world) = 5000
  /\ In (Call_schedule 7) (calls (execute reconfigured_world))
  /\ 7 = G1TimeBasedEvaluationIntervalMillis
           (env (after (execute reconfigured_world)))
  /\ exists before,
       calls (execute reconfigured_world) = before ++ [Call_schedule 7].
Proof.
  split; [reflexivity |].
  assert (In (Call_schedule 7) (calls (execute reconfigured_world))) as Hin.
  { vm_compute. do 4 right. left. reflexivity. }
  split; [exact Hin |].
  exact (execute_schedules_with_current_interval reconfigured_world 7 Hin).
Defined.

(** The flag-off cycle of [disabled_world] leaves the world as it was. *)
Lemma execute_disabled_touches_nothing_witness :
  G1UseTimeBasedHeapSizing (env disabled_world) = false
  /\ policy_calls (calls (execute disabled_world)) = []
  /\ expand_calls (calls (execute disabled_world)) = []
  /\ shrink_requests (calls (execute disabled_world)) = []
  /\ after (execute disabled_world) = disabled_world.
Proof.
  split; [reflexivity |].
  exact (execute_disabled_touches_nothing disabled_world eq_refl).
Defined.

(** A policy that stores no direction and returns 2 MiB: a shrink request. *)
Lemma execute_default_direction_is_shrink_witness :
  G1UseTimeBasedHeapSizing (env undirected_world) = true
  /\ 0 < 2097152
  /\ policy_calls (calls (execute undirected_world)) = [(8192, false)]
  /\ shrink_requests (calls (execute undirected_world)) = [(4096, 2097152)]
  /\ expand_calls (calls (execute undirected_world)) = [].
Proof.
  split; [reflexivity |]. split; [reflexivity |].
  exact (execute_default_direction_is_shrink undirected_world
           2097152 _ _ eq_refl eq_refl eq_refl).
Defined.

(** * Further properties of [execute] *)

Section MoreProperties.

Context {Objs : Type} {collab : Collaborators Objs}.

Implicit Types (w : World Objs) (e : Env Objs).




(** At most one heap call per cycle: a cycle that calls [expand] issues no
    shrink request and the other way round, and neither happens twice. *)
Theorem execute_one_heap_call_at_most w :
  (List.length (expand_calls (calls (execute w)))
   + List.length (shrink_requests (calls (execute w))) <= 1)%nat.
Proof.
  each_path w; lia.
Qed.

(** With the flag on, the policy is consulted exactly once, on the task's
    policy and with the direction variable [false], straight after the
    start record and before anything else happens. *)
Theorem execute_consults_policy_first w :
  G1UseTimeBasedHeapSizing (env w) = true ->
  exists rest,
    calls (execute w) =
      Call_log_debug "Starting heap evaluation" []
      :: Call_evaluate_heap_resize (_heap_sizing_policy (this w)) false
      :: rest
    /\ policy_calls rest = [].
Proof.
  intros Hon. each_path w; try discriminate.
  - eexists [_; _; _]. split; reflexivity.
  - eexists [_; _; _]. split; reflexivity.
  - eexists [_]. split; reflexivity.
Qed.

(** A task built by the constructor from a heap and a policy only ever
    calls that policy, and only ever expands or shrinks that heap. *)
Theorem execute_calls_constructor_arguments w (g1h heap_sizing_policy : ptr) :
  this w = new_G1HeapEvaluationTask g1h heap_sizing_policy ->
  Forall (fun c => fst c = heap_sizing_policy) (policy_calls (calls (execute w)))
  /\ Forall (fun c => fst (fst c) = g1h) (expand_calls (calls (execute w)))
  /\ Forall (fun c => fst c = g1h) (shrink_requests (calls (execute w))).
Proof.
  intros Hthis. each_path w; rewrite ?Hthis; cbn;
    repeat split; repeat constructor.
Qed.

(** The log of a cycle: the start record, then one record for each heap
    call, carrying the amount passed in that call.  A cycle without a heap
    call logs the start record only; rescheduling is not logged. *)
Theorem execute_log_records w :
  log_records (calls (execute w)) =
    ("Starting heap evaluation"%string, [])
    :: map (fun c => ("Expanding heap by %zu bytes"%string, [snd (fst c)]))
         (expand_calls (calls (execute w)))
    ++ map (fun c => ("Shrinking heap by %zu bytes"%string, [snd c]))
         (shrink_requests (calls (execute w))).
Proof.
  each_path w; reflexivity.
Qed.

(** No cycle asks the heap to expand or to shrink by zero bytes. *)
Theorem execute_never_passes_zero_bytes w :
  Forall (fun c => 0 < snd (fst c)) (expand_calls (calls (execute w)))
  /\ Forall (fun c => 0 < snd c) (shrink_requests (calls (execute w))).
Proof.
  each_path w; try apply N.ltb_lt in Hpos;
    split; repeat constructor; assumption.
Qed.

(** The flag is looked at once, on entry.  A cycle that starts with the
    flag on reschedules even when the flag is switched off while it runs;
    the next invocation then only logs its start, changes nothing and does
    not reschedule. *)
Theorem execute_samples_flag_on_entry w :
  G1UseTimeBasedHeapSizing (env w) = true ->
  G1UseTimeBasedHeapSizing (env (after (execute w))) = false ->
  List.length (schedule_calls (calls (execute w))) = 1%nat
  /\ calls (execute (after (execute w)))
     = [Call_log_debug "Starting heap evaluation" []]
  /\ after (execute (after (execute w))) = after (execute w).
Proof.
  intros Hon Hoff.
  destruct (execute_enabled_ends_with_schedule w Hon) as [before [Hcalls Hnone]].
  split.
  - rewrite Hcalls. unfold schedule_calls in *.
    rewrite flat_map_app, Hnone. reflexivity.
  - rewrite (execute_disabled (after (execute w)) Hoff). split; reflexivity.
Qed.

(** [execute] itself writes no global flag.  When no method of the policy
    or the heap changes the flags, both have after the cycle the values
    they had before it, and a cycle that reschedules passes the interval
    the flag had when the cycle began. *)
Theorem execute_writes_no_global w :
  keeps_globals collab ->
  same_globals (env w) (env (after (execute w)))
  /\ (G1UseTimeBasedHeapSizing (env w) = true ->
      schedule_calls (calls (execute w))
      = [G1TimeBasedEvaluationIntervalMillis (env w)]).
Proof.
  intros [Hpol [Hexp Hshr]]. unfold same_globals in *.
  pose proof (Hpol (_heap_sizing_policy (this w)) false (env w)) as H1.
  each_path w.
  - pose proof (Hexp (_g1h (this w)) (reply_amount reply)
                  (workers (_g1h (this w)) e1) e1) as H2.
    rewrite Hex in H2. cbn in H1, H2.
    destruct H1 as [F1 I1], H2 as [F2 I2].
    split; [split; congruence | intros _; congruence].
  - pose proof (Hshr (_g1h (this w)) (reply_amount reply) e1) as H2.
    rewrite Hsh in H2. cbn in H1, H2.
    destruct H1 as [F1 I1], H2 as [F2 I2].
    split; [split; congruence | intros _; congruence].
  - cbn in H1. destruct H1 as [F1 I1].
    split; [split; congruence | intros _; congruence].
  - split; [split; congruence | discriminate].
Qed.


End MoreProperties.

(** The outcome that [expand] reports is not looked at: whatever is
    reported in its place, the cycle makes the same calls and ends in the
    same state. *)
Theorem execute_ignores_expand_result {Objs : Type} (c : Collaborators Objs)
  (f : bool -> bool) (w : World Objs) :
  @execute Objs (with_expand_result f c) w = @execute Objs c w.
Proof.
  unfold with_expand_result. step_cycle.
  destruct (G1UseTimeBasedHeapSizing (env w)); cbn; [| reflexivity].
  destruct (@evaluate_heap_resize Objs c (_heap_sizing_policy (this w)) false (env w))
    as [[reply e1] a1]; cbn -[N.ltb].
  destruct (0 <? reply_amount reply); cbn; [| reflexivity].
  destruct (out_param false (reply_store reply)); cbn; [| reflexivity].
  destruct (@expand Objs c (_g1h (this w)) (reply_amount reply)
              (@workers Objs c (_g1h (this w)) e1) e1) as [[ok e2] a2].
  reflexivity.
Qed.

(** ** The further properties on the scripted collaborators *)

(** The policy at 8192 is the second call of the cycle of [grow_world]. *)
Lemma execute_consults_policy_first_witness :
  G1UseTimeBasedHeapSizing (env grow_world) = true
  /\ exists rest,
       calls (execute grow_world) =
         Call_log_debug "Starting heap evaluation" []
         :: Call_evaluate_heap_resize 8192 false
         :: rest
       /\ policy_calls rest = [].
Proof.
  split; [reflexivity |].
  exact (execute_consults_policy_first grow_world eq_refl).
Defined.

(** The task of [shrink_world] was built for the heap at 4096 and the
    policy at 8192. *)
Lemma execute_calls_constructor_arguments_witness :
  this shrink_world = new_G1HeapEvaluationTask 4096 8192
  /\ Forall (fun c => fst c = 8192) (policy_calls (calls (execute shrink_world)))
  /\ Forall (fun c => fst (fst c) = 4096)
       (expand_calls (calls (execute shrink_world)))
  /\ Forall (fun c => fst c = 4096)
       (shrink_requests (calls (execute shrink_world))).
Proof.
  split; [reflexivity |].
  exact (execute_calls_constructor_arguments shrink_world 4096 8192 eq_refl).
Defined.

(** The flag of [grow_world] is switched off while the policy runs. *)
Lemma execute_samples_flag_on_entry_witness :
  G1UseTimeBasedHeapSizing (env grow_world) = true
  /\ G1UseTimeBasedHeapSizing
       (env (after (@execute Scripted switching_off_collaborators grow_world)))
     = false
  /\ List.length
       (schedule_calls
          (calls (@execute Scripted switching_off_collaborators grow_world)))
     = 1%nat
  /\ calls (@execute Scripted switching_off_collaborators
              (after (@execute Scripted switching_off_collaborators grow_world)))
     = [Call_log_debug "Starting heap evaluation" []]
  /\ after (@execute Scripted switching_off_collaborators
              (after (@execute Scripted switching_off_collaborators grow_world)))
     = after (@execute Scripted switching_off_collaborators grow_world).
Proof.
  split; [reflexivity |]. split; [reflexivity |].
  exact (@execute_samples_flag_on_entry Scripted switching_off_collaborators
           grow_world eq_refl eq_refl).
Defined.

(** With the steady policy the interval stays 5000 through the cycle. *)
Lemma execute_writes_no_global_witness :
  keeps_globals steady_collaborators
  /\ same_globals (env reconfigured_world)
       (env (after (@execute Scripted steady_collaborators reconfigured_world)))
  /\ (G1UseTimeBasedHeapSizing (env reconfigured_world) = true ->
      schedule_calls
        (calls (@execute Scripted steady_collaborators reconfigured_world))
      = [5000]).
Proof.
  assert (keeps_globals steady_collaborators) as Hkeeps.
  { split; [| split]; intros; unfold same_globals; cbn.
    - split; reflexivity.
    - unfold scripted_expand. destruct (_ <=? _); split; reflexivity.
    - split; reflexivity. }
  split; [exact Hkeeps |].
  exact (@execute_writes_no_global Scripted steady_collaborators
           reconfigured_world Hkeeps).
Defined.
